(** * remove_bg.py: replacing the near-white background of a logo by
      transparent pixels

    The script opens one image, converts it to the four-channel mode
    "RGBA", walks over the flat pixel sequence, appends to [newData] either
    the transparent white tuple or the pixel itself, puts the new sequence
    back into the image and saves it as PNG.  Everything happens inside one
    [try] block whose handler prints the error.

    The embedding below follows the script statement by statement.  Python
    integers are [Z], the pixel tuples are Rocq tuples, the pixel sequence
    is a [list], the file system is a finite map from paths to file
    contents, and the body of the [try] block runs in a small state and
    error monad over the file system and the console. *)

From Stdlib Require Import ZArith Lia.
From stdpp Require Import base option list strings gmap.

Local Open Scope Z_scope.

Module RemoveBg.

(** ** Pixels *)

(** A three-channel pixel [(r, g, b)] and a four-channel pixel
    [(r, g, b, a)], as the tuples that iterating over an image yields. *)
Abbreviation rgb_pixel := (Z * Z * Z)%type.
Abbreviation pixel := (Z * Z * Z * Z)%type.

(** [item[0]], [item[1]], [item[2]] and [item[3]]. *)
Definition item0 (item : pixel) : Z := let '(r, _, _, _) := item in r.
Definition item1 (item : pixel) : Z := let '(_, g, _, _) := item in g.
Definition item2 (item : pixel) : Z := let '(_, _, b, _) := item in b.
Definition item3 (item : pixel) : Z := let '(_, _, _, a) := item in a.

(** The tuple appended for a near-white pixel: [(255, 255, 255, 0)]. *)
Definition transparent : pixel := (255, 255, 255, 0).

(** The condition of the [if]:
    [item[0] > 240 and item[1] > 240 and item[2] > 240]. *)
Definition near_white (item : pixel) : bool :=
  (item0 item >? 240) && (item1 item >? 240) && (item2 item >? 240).

(** One turn of the loop body, as the value that gets appended. *)
Definition new_item (item : pixel) : pixel :=
  if near_white item then transparent else item.

(** The [for item in datas] loop: [newData] is threaded through as the
    accumulator and grows at its end, like [newData.append]. *)
Fixpoint for_item_in (datas : list pixel) (newData : list pixel) : list pixel :=
  match datas with
  | [] => newData
  | item :: rest => for_item_in rest (newData ++ [new_item item])
  end.

(** [newData = []] followed by the loop. *)
Definition build_newData (datas : list pixel) : list pixel :=
  for_item_in datas [].

(** ** Images *)

(** An image in mode "RGBA": [size] is [(width, height)] and [data] is the
    flat pixel sequence, row after row from the upper left corner. *)
Record RGBAImage : Type := mkRGBA {
  size : nat * nat;
  data : list pixel
}.

(** What [Image.open] hands back.  The script only deals with sources of
    three channels (mode "RGB") and of four channels (mode "RGBA"). *)
Inductive Image : Type :=
  | ImageRGB (sz : nat * nat) (px : list rgb_pixel)
  | ImageRGBA (im : RGBAImage).

Definition image_size (img : Image) : nat * nat :=
  match img with
  | ImageRGB sz _ => sz
  | ImageRGBA im => size im
  end.

Definition image_length (img : Image) : nat :=
  match img with
  | ImageRGB _ px => length px
  | ImageRGBA im => length (data im)
  end.

(** The number of pixels of an image of that size. *)
Definition area (sz : nat * nat) : nat := (sz.1 * sz.2)%nat.

(** The library keeps exactly [width * height] pixels per image. *)
Definition wf_rgba (im : RGBAImage) : Prop := length (data im) = area (size im).
Definition wf_image (img : Image) : Prop := image_length img = area (image_size img).

#[global] Instance wf_rgba_dec im : Decision (wf_rgba im).
Proof. unfold wf_rgba. apply _. Defined.
#[global] Instance wf_image_dec img : Decision (wf_image img).
Proof. unfold wf_image. apply _. Defined.

(** The library's band expansion for [img.convert("RGBA")]: a
    three-channel pixel gets the opaque alpha 255, a four-channel image is
    copied as it is. *)
Definition add_alpha (p : rgb_pixel) : pixel := let '(r, g, b) := p in (r, g, b, 255).

Definition convert_RGBA (img : Image) : RGBAImage :=
  match img with
  | ImageRGB sz px => {| size := sz; data := add_alpha <$> px |}
  | ImageRGBA im => im
  end.

(** [img.getdata()]: the flat pixel sequence. *)
Definition getdata (img : RGBAImage) : list pixel := data img.

(** ** Exceptions *)

(** An instance of Python's [Exception]: its class name and [str(e)]. *)
Record Exception : Type := mkException {
  exc_class : string;
  exc_str : string
}.

(** [img.putdata(newData)]: the sequence is copied over the pixels from the
    upper left corner on; the library refuses a sequence longer than the
    image and leaves the pixels past a shorter one as they were.  The size
    of the image is not touched. *)
Definition putdata (img : RGBAImage) (newData : list pixel) : Exception + RGBAImage :=
  if decide (length newData ≤ area (size img))%nat
  then inr {| size := size img;
              data := newData ++ drop (length newData) (data img) |}
  else inl (mkException "TypeError" "too many data entries").

(** The statements between [Image.open] and [img.save], which touch nothing
    but the image. *)
Definition remove_background (src : Image) : Exception + RGBAImage :=
  let img := convert_RGBA src in
  let datas := getdata img in
  let newData := build_newData datas in
  putdata img newData.

(** A channel value that fits the eight bits an image keeps per channel,
    and a pixel all of whose channels do. *)
Definition is_u8 (c : Z) : bool := (0 <=? c) && (c <=? 255).

Definition u8_pixel (item : pixel) : bool :=
  is_u8 (item0 item) && is_u8 (item1 item) && is_u8 (item2 item) &&
  is_u8 (item3 item).

(** ** The file system, the console and the script *)

(** The two paths of the script. *)
Definition source : string := "d:\BuddyMate\assets\logo.png".
Definition target : string := "d:\BuddyMate\assets\logo_transparent.png".

(** What the script can observe and change: the files by path and the
    lines printed so far, one entry per call of [print]. *)
Record World : Type := mkWorld {
  fs : gmap string (list Byte.byte);
  stdout : list string
}.

(** A statement either raises or yields a value, and may change the world
    on the way. *)
Definition Run (A : Type) : Type := World → World * (Exception + A).

#[global] Instance Run_ret : MRet Run := λ A x w, (w, inr x).
#[global] Instance Run_bind : MBind Run := λ A B k m w,
  match m w with
  | (w', inr x) => k x w'
  | (w', inl e) => (w', inl e)
  end.

(** A step that touches nothing but Python values. *)
Definition lift {A : Type} (r : Exception + A) : Run A := λ w, (w, r).

(** [try: body except Exception as e: handler]. *)
Definition try_except {A : Type} (body : Run A) (handler : Exception → Run A) : Run A :=
  λ w, match body w with
       | (w', inl e) => handler e w'
       | (w', inr x) => (w', inr x)
       end.

(** [print(line)]. *)
Definition print (line : string) : Run unit :=
  λ w, ({| fs := fs w; stdout := stdout w ++ [line] |}, inr tt).

Section Script.

(** The image library and the operating system, left open: how file
    contents decode to an image, what the operating system says about a
    missing path, and what saving an image as PNG does to the file system
    (it may fail, and may leave a file behind when it does). *)
Variable decode : list Byte.byte → Exception + Image.
Variable strerror_missing : string → string.
Variable save_png : RGBAImage → string → gmap string (list Byte.byte) →
                    gmap string (list Byte.byte) * option Exception.

(** [Image.open(path)]: a missing file raises [FileNotFoundError],
    otherwise the contents are decoded. *)
Definition Image_open (path : string) : Run Image :=
  λ w, match fs w !! path with
       | None => (w, inl (mkException "FileNotFoundError" (strerror_missing path)))
       | Some bytes => (w, decode bytes)
       end.

(** [img.save(path, "PNG")]. *)
Definition save (img : RGBAImage) (path : string) : Run unit :=
  λ w, let '(fs', r) := save_png img path (fs w) in
       ({| fs := fs'; stdout := stdout w |},
        match r with Some e => inl e | None => inr tt end).

(** The body of the [try] block. *)
Definition try_body : Run unit :=
  img ← Image_open source;
  let img := convert_RGBA img in
  let datas := getdata img in
  let newData := build_newData datas in
  img ← lift (putdata img newData);
  save img target;;
  print ("Success: Created " +:+ target).

(** The handler: [print(f"Error: {e}")]. *)
Definition handler (e : Exception) : Run unit :=
  print ("Error: " +:+ exc_str e).

(** The whole script. *)
Definition main : Run unit := try_except try_body handler.

End Script.

(** ** The loop *)

Lemma near_white_true (r g b a : Z) :
  near_white (r, g, b, a) = true ↔ 240 < r ∧ 240 < g ∧ 240 < b.
Proof.
  unfold near_white; cbn [item0 item1 item2].
  rewrite !andb_true_iff, !Z.gtb_lt. tauto.
Qed.

Lemma near_white_false (r g b a : Z) :
  near_white (r, g, b, a) = false ↔ r ≤ 240 ∨ g ≤ 240 ∨ b ≤ 240.
Proof.
  rewrite <- not_true_iff_false, near_white_true. lia.
Qed.

Lemma near_white_transparent : near_white transparent = true.
Proof. reflexivity. Qed.

Lemma new_item_near_white (item : pixel) :
  near_white item = true → new_item item = transparent.
Proof. unfold new_item. by intros ->. Qed.

Lemma new_item_other (item : pixel) :
  near_white item = false → new_item item = item.
Proof. unfold new_item. by intros ->. Qed.

Lemma new_item_cases (item : pixel) :
  new_item item = transparent ∨ new_item item = item.
Proof. unfold new_item. destruct (near_white item); auto. Qed.

Lemma new_item_new_item (item : pixel) :
  new_item (new_item item) = new_item item.
Proof.
  unfold new_item at 2 3.
  destruct (near_white item) eqn:E.
  - by apply new_item_near_white.
  - by apply new_item_other.
Qed.

(** The accumulator only ever grows at its end: after the loop it holds
    what it held before, followed by one new item per item of [datas]. *)
Lemma for_item_in_app (datas newData : list pixel) :
  for_item_in datas newData = newData ++ (new_item <$> datas).
Proof.
  revert newData.
  induction datas as [|item rest IH]; intros newData; cbn.
  - by rewrite app_nil_r.
  - by rewrite IH, <- app_assoc.
Qed.

Lemma build_newData_fmap (datas : list pixel) :
  build_newData datas = new_item <$> datas.
Proof. unfold build_newData. by rewrite for_item_in_app. Qed.

Lemma build_newData_length (datas : list pixel) :
  length (build_newData datas) = length datas.
Proof. by rewrite build_newData_fmap, length_fmap. Qed.

Lemma build_newData_lookup (datas : list pixel) (i : nat) :
  build_newData datas !! i = new_item <$> (datas !! i).
Proof. by rewrite build_newData_fmap, list_lookup_fmap. Qed.

(** ** The image between [open] and [save] *)

Lemma convert_RGBA_size (src : Image) :
  size (convert_RGBA src) = image_size src.
Proof. by destruct src. Qed.

Lemma convert_RGBA_length (src : Image) :
  length (getdata (convert_RGBA src)) = image_length src.
Proof. destruct src; cbn; [by rewrite length_fmap | done]. Qed.

Lemma convert_RGBA_wf (src : Image) :
  wf_image src → wf_rgba (convert_RGBA src).
Proof.
  unfold wf_image, wf_rgba. intros Hwf.
  by rewrite convert_RGBA_size, <- Hwf, <- convert_RGBA_length.
Qed.

(** A sequence as long as the image replaces all of its pixels. *)
Lemma putdata_full (img : RGBAImage) (newData : list pixel) :
  wf_rgba img → length newData = length (data img) →
  putdata img newData = inr {| size := size img; data := newData |}.
Proof.
  unfold wf_rgba, putdata. intros Hwf Hlen.
  rewrite decide_True by lia.
  by rewrite Hlen, drop_all, app_nil_r.
Qed.

(** On an image of [width * height] pixels [putdata] cannot refuse the new
    sequence, and the image that is saved holds exactly [newData]. *)
Lemma remove_background_ok (src : Image) :
  wf_image src →
  remove_background src =
    inr {| size := image_size src;
           data := new_item <$> getdata (convert_RGBA src) |}.
Proof.
  intros Hwf. unfold remove_background.
  rewrite putdata_full.
  - by rewrite convert_RGBA_size, build_newData_fmap.
  - by apply convert_RGBA_wf.
  - apply build_newData_length.
Qed.

(** Whenever [putdata] accepts the new sequence, the image holds exactly
    that sequence: nothing of the old pixels is left behind it. *)
Lemma remove_background_inr (src : Image) (out : RGBAImage) :
  remove_background src = inr out →
  out = {| size := image_size src;
           data := new_item <$> getdata (convert_RGBA src) |}.
Proof.
  unfold remove_background, putdata.
  destruct (decide _) as [_|_]; [|done].
  intros [= <-].
  rewrite build_newData_length. unfold getdata.
  by rewrite drop_all, app_nil_r, convert_RGBA_size, build_newData_fmap.
Qed.

(** Pixel [i] of the output is the new item for pixel [i] of the
    four-channel input. *)
Lemma remove_background_lookup (src : Image) (out : RGBAImage) (i : nat) :
  remove_background src = inr out →
  getdata out !! i = new_item <$> (getdata (convert_RGBA src) !! i).
Proof.
  intros ->%remove_background_inr.
  unfold getdata at 1; cbn [data].
  apply list_lookup_fmap.
Qed.

(** Running the statements again on the image they produced gives that
    image back. *)
Lemma remove_background_again (src : Image) (out : RGBAImage) :
  remove_background src = inr out →
  remove_background (ImageRGBA out) = inr out.
Proof.
  intros Hrun. pose proof (remove_background_inr src out Hrun) as ->.
  unfold remove_background, putdata in *. cbn [convert_RGBA size] in *.
  rewrite build_newData_length in *. rewrite convert_RGBA_size in Hrun.
  unfold getdata in *. cbn [data].
  rewrite length_fmap.
  destruct (decide _) as [_|_]; [|done].
  rewrite <- (length_fmap new_item), drop_all, app_nil_r, build_newData_fmap.
  do 2 f_equal. rewrite <- list_fmap_compose.
  apply list_fmap_ext. intros _ item _. apply new_item_new_item.
Qed.

(** ** The pixels of the output *)

(** C1: every pixel of the four-channel input whose red, green and blue
    channels are all strictly greater than 240 comes out as exactly
    (255, 255, 255, 0), whatever its alpha channel holds. *)
Theorem near_white_becomes_transparent (src : Image) (i : nat) (r g b a : Z) :
  wf_image src →
  getdata (convert_RGBA src) !! i = Some (r, g, b, a) →
  r > 240 → g > 240 → b > 240 →
  ∃ out, remove_background src = inr out ∧
         getdata out !! i = Some (255, 255, 255, 0).
Proof.
  intros Hwf Hi Hr Hg Hb.
  eexists. split; [by apply remove_background_ok|].
  rewrite (remove_background_lookup src) by by apply remove_background_ok.
  rewrite Hi. cbn [fmap option_fmap option_map].
  f_equal. apply new_item_near_white, near_white_true. lia.
Qed.

Lemma near_white_becomes_transparent_witness :
  ∃ out,
    remove_background
      (ImageRGBA {| size := (2, 1)%nat;
                    data := [(250, 241, 255, 7); (10, 20, 30, 255)] |}) = inr out ∧
    getdata out !! 0%nat = Some (255, 255, 255, 0).
Proof.
  apply (near_white_becomes_transparent _ 0 250 241 255 7);
    [reflexivity | reflexivity | lia | lia | lia].
Defined.

(** C2: every pixel of the four-channel input with at least one of its
    red, green and blue channels at 240 or below comes out equal to the
    input pixel, alpha included; that alpha is 255 when the source had three
    channels and the alpha of the source when it had four. *)
Theorem other_pixels_are_copied (src : Image) (i : nat) (r g b a : Z) :
  wf_image src →
  getdata (convert_RGBA src) !! i = Some (r, g, b, a) →
  r ≤ 240 ∨ g ≤ 240 ∨ b ≤ 240 →
  ∃ out, remove_background src = inr out ∧
         getdata out !! i = Some (r, g, b, a) ∧
         match src with
         | ImageRGB _ px => px !! i = Some (r, g, b) ∧ a = 255
         | ImageRGBA im => data im !! i = Some (r, g, b, a)
         end.
Proof.
  intros Hwf Hi Hrgb.
  eexists. split; [by apply remove_background_ok|]. split.
  - rewrite (remove_background_lookup src) by by apply remove_background_ok.
    rewrite Hi. cbn [fmap option_fmap option_map].
    f_equal. by apply new_item_other, near_white_false.
  - destruct src as [sz px|im]; cbn in Hi; [|done].
    rewrite list_lookup_fmap in Hi.
    destruct (px !! i) as [[[r' g'] b']|]; [|done].
    cbn in Hi. by injection Hi as -> -> -> <-.
Qed.

Lemma other_pixels_are_copied_witness :
  ∃ out,
    remove_background (ImageRGB (2, 1)%nat [(255, 255, 255); (241, 240, 250)]) = inr out ∧
    getdata out !! 1%nat = Some (241, 240, 250, 255) ∧
    [(255, 255, 255); (241, 240, 250)] !! 1%nat = Some (241, 240, 250) ∧ 255 = 255.
Proof.
  apply (other_pixels_are_copied
           (ImageRGB (2, 1)%nat [(255, 255, 255); (241, 240, 250)]) 1 241 240 250 255);
    [reflexivity | reflexivity | lia].
Defined.

(** C3: the test is a strict greater-than on each of the three colour
    channels: (240, 240, 240) is kept as it is, (241, 241, 241) becomes
    (255, 255, 255, 0), and (241, 241, 239) is kept as it is. *)
Theorem threshold_is_strict :
  (∀ r g b a : Z, near_white (r, g, b, a) = true ↔ 240 < r ∧ 240 < g ∧ 240 < b) ∧
  (∀ a : Z, new_item (240, 240, 240, a) = (240, 240, 240, a)) ∧
  (∀ a : Z, new_item (241, 241, 241, a) = (255, 255, 255, 0)) ∧
  (∀ a : Z, new_item (241, 241, 239, a) = (241, 241, 239, a)).
Proof.
  split; [exact near_white_true|].
  repeat split; intros a; reflexivity.
Qed.

(** C4: running the loop on its own output gives the same pixel list as
    running it once; (255, 255, 255, 0) is mapped to itself and so is every
    pixel that the loop has produced. *)
Theorem transform_idempotent (datas : list pixel) :
  build_newData (build_newData datas) = build_newData datas ∧
  new_item (255, 255, 255, 0) = (255, 255, 255, 0) ∧
  (∀ item : pixel, new_item (new_item item) = new_item item).
Proof.
  split; [|split; [reflexivity | exact new_item_new_item]].
  rewrite !build_newData_fmap, <- list_fmap_compose.
  apply list_fmap_ext. intros _ item _. apply new_item_new_item.
Qed.

(** C5: the decision looks at red, green and blue only: two pixels that
    differ in alpha alone get the same decision, and a pixel with all three
    colour channels above 240 becomes (255, 255, 255, 0) for any alpha. *)
Theorem decision_ignores_alpha (r g b a a' : Z) :
  near_white (r, g, b, a) = near_white (r, g, b, a') ∧
  (r > 240 → g > 240 → b > 240 → new_item (r, g, b, a) = (255, 255, 255, 0)).
Proof.
  split; [reflexivity|].
  intros Hr Hg Hb. apply new_item_near_white, near_white_true. lia.
Qed.

Lemma decision_ignores_alpha_witness :
  near_white (255, 250, 241, 0) = near_white (255, 250, 241, 128) ∧
  new_item (255, 250, 241, 0) = (255, 255, 255, 0).
Proof.
  split.
  - exact (proj1 (decision_ignores_alpha 255 250 241 0 128)).
  - apply (proj2 (decision_ignores_alpha 255 250 241 0 128)); lia.
Defined.

(** C6: the three-channel image of width 2 and height 1 with the pixels
    (255, 255, 255) and (10, 20, 30) comes out with the pixels
    (255, 255, 255, 0) and (10, 20, 30, 255). *)
Theorem scenario_two_by_one :
  getdata (convert_RGBA (ImageRGB (2, 1)%nat [(255, 255, 255); (10, 20, 30)])) =
    [(255, 255, 255, 255); (10, 20, 30, 255)] ∧
  build_newData [(255, 255, 255, 255); (10, 20, 30, 255)] =
    [(255, 255, 255, 0); (10, 20, 30, 255)] ∧
  remove_background (ImageRGB (2, 1)%nat [(255, 255, 255); (10, 20, 30)]) =
    inr {| size := (2, 1)%nat;
           data := [(255, 255, 255, 0); (10, 20, 30, 255)] |}.
Proof. repeat split. Qed.

(** C7: the output image has the width and height of the input image; the
    loop yields one pixel per input pixel, so the output holds as many
    pixels as the input and again exactly [width * height] of them. *)
Theorem dimensions_preserved (src : Image) :
  wf_image src →
  ∃ out, remove_background src = inr out ∧
         size out = image_size src ∧
         size out = size (convert_RGBA src) ∧
         length (build_newData (getdata (convert_RGBA src))) =
           length (getdata (convert_RGBA src)) ∧
         length (getdata out) = length (getdata (convert_RGBA src)) ∧
         length (getdata out) = image_length src ∧
         wf_rgba out.
Proof.
  intros Hwf.
  eexists. split; [by apply remove_background_ok|].
  assert (Hlen : length (new_item <$> getdata (convert_RGBA src)) =
                 image_length src)
    by by rewrite length_fmap, convert_RGBA_length.
  repeat split.
  - by rewrite convert_RGBA_size.
  - apply build_newData_length.
  - by rewrite convert_RGBA_length.
  - done.
  - unfold wf_rgba; cbn [size data]. by rewrite Hlen.
Qed.

Lemma dimensions_preserved_witness :
  ∃ out,
    remove_background
      (ImageRGB (2, 2)%nat
         [(255, 255, 255); (10, 20, 30); (241, 241, 241); (0, 0, 0)]) = inr out ∧
    size out = (2, 2)%nat ∧ length (getdata out) = 4%nat.
Proof.
  destruct (dimensions_preserved
              (ImageRGB (2, 2)%nat
                 [(255, 255, 255); (10, 20, 30); (241, 241, 241); (0, 0, 0)]))
    as (out & Hrun & Hsize & _ & _ & _ & Hlen & _); [reflexivity|].
  exists out. auto.
Defined.

(** C9: output pixel [i] is a function of input pixel [i] alone: two input
    lists that agree at [i] give the same output at [i], and overwriting
    the input at any other index leaves the output at [i] as it was. *)
Theorem pixels_processed_independently (datas datas' : list pixel) (i : nat) :
  build_newData datas !! i = new_item <$> (datas !! i) ∧
  (datas !! i = datas' !! i →
   build_newData datas !! i = build_newData datas' !! i) ∧
  (∀ (j : nat) (p : pixel), j ≠ i →
   build_newData (<[j := p]> datas) !! i = build_newData datas !! i).
Proof.
  split; [apply build_newData_lookup|]. split.
  - intros Hi. by rewrite !build_newData_lookup, Hi.
  - intros j p Hji. by rewrite !build_newData_lookup, list_lookup_insert_ne.
Qed.

Lemma pixels_processed_independently_witness :
  build_newData [(1, 2, 3, 4); (250, 250, 250, 9)] !! 1%nat =
    build_newData [(7, 7, 7, 7); (250, 250, 250, 9); (0, 0, 0, 0)] !! 1%nat ∧
  build_newData (<[0%nat := (255, 255, 255, 255)]> [(1, 2, 3, 4); (250, 250, 250, 9)]) !! 1%nat =
    build_newData [(1, 2, 3, 4); (250, 250, 250, 9)] !! 1%nat.
Proof.
  split.
  - apply (proj1 (proj2 (pixels_processed_independently
                           [(1, 2, 3, 4); (250, 250, 250, 9)]
                           [(7, 7, 7, 7); (250, 250, 250, 9); (0, 0, 0, 0)] 1))).
    reflexivity.
  - apply (proj2 (proj2 (pixels_processed_independently
                           [(1, 2, 3, 4); (250, 250, 250, 9)] [] 1))).
    lia.
Defined.

(** C10: every output pixel is either exactly (255, 255, 255, 0) or equal
    to the input pixel at the same index; so its alpha is 0 or the alpha of
    that input pixel, and its colour triple is (255, 255, 255) or the colour
    triple of that input pixel. *)
Theorem output_dichotomy (src : Image) (out_img : RGBAImage) (i : nat) (out : pixel) :
  remove_background src = inr out_img →
  getdata out_img !! i = Some out →
  ∃ inp : pixel,
    getdata (convert_RGBA src) !! i = Some inp ∧
    (out = (255, 255, 255, 0) ∨ out = inp) ∧
    (item3 out = 0 ∨ item3 out = item3 inp) ∧
    ((item0 out, item1 out, item2 out) = (255, 255, 255) ∨
     (item0 out, item1 out, item2 out) = (item0 inp, item1 inp, item2 inp)).
Proof.
  intros Hrun Hout.
  rewrite (remove_background_lookup src out_img i Hrun) in Hout.
  destruct (getdata (convert_RGBA src) !! i) as [inp|]; [|done].
  injection Hout as <-. exists inp. split; [done|].
  destruct (new_item_cases inp) as [->| ->]; unfold transparent; cbn; auto.
Qed.

Lemma output_dichotomy_witness :
  ∃ inp : pixel,
    getdata (convert_RGBA (ImageRGB (2, 1)%nat [(255, 255, 255); (10, 20, 30)])) !! 1%nat =
      Some inp ∧
    ((10, 20, 30, 255) = (255, 255, 255, 0) ∨ (10, 20, 30, 255) = inp) ∧
    (255 = 0 ∨ 255 = item3 inp) ∧
    ((10, 20, 30) = (255, 255, 255) ∨
     (10, 20, 30) = (item0 inp, item1 inp, item2 inp)).
Proof.
  apply (output_dichotomy
           (ImageRGB (2, 1)%nat [(255, 255, 255); (10, 20, 30)])
           {| size := (2, 1)%nat; data := [(255, 255, 255, 0); (10, 20, 30, 255)] |}
           1 (10, 20, 30, 255));
    reflexivity.
Defined.

(** ** The script as a whole *)

Section ScriptFacts.

Variable decode : list Byte.byte → Exception + Image.
Variable strerror_missing : string → string.
Variable save_png : RGBAImage → string → gmap string (list Byte.byte) →
                    gmap string (list Byte.byte) * option Exception.

Local Abbreviation try_body := (try_body decode strerror_missing save_png).
Local Abbreviation main := (main decode strerror_missing save_png).

(** The four places where the [try] block can stop, and its one way to
    the end. *)
Lemma try_body_run (w : World) :
  try_body w =
    match fs w !! source with
    | None => (w, inl (mkException "FileNotFoundError" (strerror_missing source)))
    | Some bytes =>
        match decode bytes with
        | inl e => (w, inl e)
        | inr src =>
            match remove_background src with
            | inl e => (w, inl e)
            | inr out =>
                match save_png out target (fs w) with
                | (fs', Some e) => ({| fs := fs'; stdout := stdout w |}, inl e)
                | (fs', None) =>
                    ({| fs := fs';
                        stdout := stdout w ++ ["Success: Created " +:+ target] |},
                     inr tt)
                end
            end
        end
    end.
Proof.
  unfold RemoveBg.try_body, mbind, Run_bind, Image_open, lift, save, print.
  destruct (fs w !! source) as [bytes|]; [|done].
  destruct (decode bytes) as [e|src]; [done|].
  fold (remove_background src).
  destruct (remove_background src) as [e|out]; [done|].
  by destruct (save_png out target (fs w)) as [fs' [e|]].
Qed.

(** Nothing is printed before the last statement of the [try] block, so a
    block that raises has printed nothing. *)
Lemma try_body_raises_silent (w w1 : World) (e : Exception) :
  try_body w = (w1, inl e) → stdout w1 = stdout w.
Proof.
  rewrite try_body_run.
  destruct (fs w !! source) as [bytes|]; [|by intros [= <- _]].
  destruct (decode bytes) as [e'|src]; [by intros [= <- _]|].
  destruct (remove_background src) as [e'|out]; [by intros [= <- _]|].
  destruct (save_png out target (fs w)) as [fs' [e'|]]; [|done].
  by intros [= <- _].
Qed.

Lemma main_raised (w w1 : World) (e : Exception) :
  try_body w = (w1, inl e) →
  main w = ({| fs := fs w1; stdout := stdout w ++ ["Error: " +:+ exc_str e] |},
            inr tt).
Proof.
  intros Hbody. unfold RemoveBg.main, try_except, handler, print.
  rewrite Hbody. by rewrite (try_body_raises_silent w w1 e Hbody).
Qed.

Lemma main_finished (w w1 : World) :
  try_body w = (w1, inr tt) → main w = (w1, inr tt).
Proof.
  intros Hbody. unfold RemoveBg.main, try_except. by rewrite Hbody.
Qed.

(** With a readable source and a save that goes through, the script
    saves the image of [remove_background] and reports it. *)
Lemma main_success (w : World) (bytes : list Byte.byte) (src : Image)
    (fs' : gmap string (list Byte.byte)) :
  fs w !! source = Some bytes →
  decode bytes = inr src →
  wf_image src →
  save_png {| size := image_size src;
              data := new_item <$> getdata (convert_RGBA src) |}
           target (fs w) = (fs', None) →
  main w = ({| fs := fs';
               stdout := stdout w ++ ["Success: Created " +:+ target] |},
            inr tt).
Proof.
  intros Hsrc Hdec Hwf Hsave. apply main_finished.
  by rewrite try_body_run, Hsrc, Hdec, remove_background_ok, Hsave.
Qed.

(** C8: whatever raises inside the [try] block, the script still ends
    without an exception, having printed the one line "Error: " followed
    by the description of the failure; with no file at the source path
    that line is all that happens, and the file system is left as it
    was. *)
Theorem failures_are_caught (w : World) :
  (∃ w', main w = (w', inr tt)) ∧
  (∀ (e : Exception) (w1 : World),
     try_body w = (w1, inl e) →
     main w = ({| fs := fs w1;
                  stdout := stdout w ++ ["Error: " +:+ exc_str e] |},
               inr tt)) ∧
  (fs w !! source = None →
   main w = ({| fs := fs w;
                stdout := stdout w ++
                  ["Error: " +:+ strerror_missing source] |},
             inr tt)).
Proof.
  split; [|split].
  - destruct (try_body w) as [w1 [e|[]]] eqn:Hbody.
    + eexists. by apply main_raised.
    + eexists. by apply main_finished.
  - intros e w1. apply main_raised.
  - intros Hmissing.
    apply (main_raised w w
             (mkException "FileNotFoundError" (strerror_missing source))).
    by rewrite try_body_run, Hmissing.
Qed.

End ScriptFacts.

Lemma failures_are_caught_witness :
  main (λ _, inl (mkException "UnidentifiedImageError" "cannot identify image file"))
       (λ path, "[Errno 2] No such file or directory: " +:+ path)
       (λ _ _ files, (files, None))
       {| fs := ∅; stdout := [] |} =
    ({| fs := ∅;
        stdout := [] ++ ["Error: " +:+ ("[Errno 2] No such file or directory: " +:+ source)] |},
     inr tt).
Proof.
  apply (proj2 (proj2 (failures_are_caught
                         (λ _, inl (mkException "UnidentifiedImageError"
                                                "cannot identify image file"))
                         (λ path, "[Errno 2] No such file or directory: " +:+ path)
                         (λ _ _ files, (files, None))
                         {| fs := ∅; stdout := [] |}))).
  reflexivity.
Defined.

(** ** More about the loop *)

Lemma near_white_item (item : pixel) :
  near_white item = true ↔
  240 < item0 item ∧ 240 < item1 item ∧ 240 < item2 item.
Proof. destruct item as [[[r g] b] a]. apply near_white_true. Qed.

Lemma new_item_fixed (item : pixel) :
  new_item item = item ↔ near_white item = false ∨ item = transparent.
Proof.
  split.
  - intros Hfix. destruct (near_white item) eqn:E; [right|by left].
    by rewrite <- Hfix, new_item_near_white.
  - intros [E| ->]; [by apply new_item_other|reflexivity].
Qed.

Lemma new_item_transparent_iff (item : pixel) :
  new_item item = transparent ↔ near_white item = true.
Proof.
  split; [|apply new_item_near_white].
  destruct (near_white item) eqn:E; [done|].
  rewrite new_item_other by done. intros ->. by rewrite <- E.
Qed.

(** X1: a pixel comes out as (255, 255, 255, 0) exactly when it passes
    the test: the loop makes no pixel transparent white that has a colour
    channel at 240 or below. *)
Theorem transparent_only_if_near_white (datas : list pixel) (i : nat) (item : pixel) :
  datas !! i = Some item →
  (build_newData datas !! i = Some (255, 255, 255, 0) ↔
   240 < item0 item ∧ 240 < item1 item ∧ 240 < item2 item).
Proof.
  intros Hi. rewrite build_newData_lookup, Hi. cbn [fmap option_fmap option_map].
  rewrite <- near_white_item, <- new_item_transparent_iff.
  split; [by intros [= ->]|by intros ->].
Qed.

Lemma transparent_only_if_near_white_witness :
  build_newData [(250, 250, 240, 0); (241, 255, 242, 9)] !! 0%nat =
    Some (255, 255, 255, 0) ↔
  240 < 250 ∧ 240 < 250 ∧ 240 < 240.
Proof.
  apply (transparent_only_if_near_white
           [(250, 250, 240, 0); (241, 255, 242, 9)] 0 (250, 250, 240, 0)).
  reflexivity.
Defined.

(** X2: after the loop no pixel passes the test except (255, 255, 255, 0)
    itself: every near-white pixel of the output is fully transparent. *)
Theorem no_opaque_near_white_left (datas : list pixel) (item : pixel) :
  item ∈ build_newData datas →
  near_white item = true →
  item = (255, 255, 255, 0).
Proof.
  rewrite build_newData_fmap. intros (inp & -> & _)%list_elem_of_fmap Hnw.
  destruct (new_item_cases inp) as [E|E]; [done|].
  rewrite E in Hnw |- *. by rewrite <- E, new_item_near_white.
Qed.

Lemma no_opaque_near_white_left_witness :
  ((255, 255, 255, 0) : pixel) = (255, 255, 255, 0).
Proof.
  apply (no_opaque_near_white_left [(1, 2, 3, 4); (250, 251, 252, 253)]);
    [|reflexivity].
  apply list_elem_of_lookup. exists 1%nat. reflexivity.
Defined.

(** X3: the loop leaves a pixel list as it is exactly when every pixel of
    the list that passes the test is already (255, 255, 255, 0). *)
Theorem unchanged_iff_nothing_to_clear (datas : list pixel) :
  build_newData datas = datas ↔
  Forall (λ item, near_white item = true → item = (255, 255, 255, 0)) datas.
Proof.
  rewrite build_newData_fmap. split.
  - intros Hfix. apply Forall_lookup. intros i item Hi Hnw.
    assert (Hnew : (new_item <$> datas) !! i = Some (new_item item))
      by by rewrite list_lookup_fmap, Hi.
    rewrite Hfix, Hi in Hnew. injection Hnew as Hnew.
    by rewrite Hnew, new_item_near_white.
  - intros Hall. induction Hall as [|item rest Hitem _ IH]; [done|].
    cbn. rewrite IH. f_equal. apply new_item_fixed.
    destruct (near_white item); [right; by apply Hitem|by left].
Qed.

(** X4: the loop keeps channel values within eight bits: when every
    channel of every input pixel lies in 0..255, so does every channel of
    every output pixel. *)
Theorem channels_stay_u8 (datas : list pixel) :
  Forall (λ item, u8_pixel item = true) datas →
  Forall (λ item, u8_pixel item = true) (build_newData datas).
Proof.
  rewrite build_newData_fmap. intros Hall.
  apply Forall_fmap. eapply Forall_impl; [exact Hall|].
  intros item Hitem. cbn. by destruct (new_item_cases item) as [-> | ->].
Qed.

Lemma channels_stay_u8_witness :
  Forall (λ item, u8_pixel item = true)
         (build_newData [(255, 241, 250, 17); (0, 128, 255, 255)]).
Proof.
  apply (channels_stay_u8 [(255, 241, 250, 17); (0, 128, 255, 255)]).
  repeat constructor.
Defined.


(** ** More about the image *)

(** X6: converting, looping and putting back once more, on the image that
    these statements produced, gives that same image: size and every pixel
    are as before. *)
Theorem second_pass_changes_nothing (src : Image) (out : RGBAImage) :
  remove_background src = inr out →
  remove_background (ImageRGBA out) = inr out.
Proof. apply remove_background_again. Qed.

Lemma second_pass_changes_nothing_witness :
  remove_background
    (ImageRGBA {| size := (2, 1)%nat;
                  data := [(255, 255, 255, 0); (10, 20, 30, 255)] |}) =
    inr {| size := (2, 1)%nat;
           data := [(255, 255, 255, 0); (10, 20, 30, 255)] |}.
Proof.
  apply (second_pass_changes_nothing
           (ImageRGB (2, 1)%nat [(255, 255, 255); (10, 20, 30)])).
  reflexivity.
Defined.

(** X7: for a three-channel source every pixel of the output is either
    fully transparent or fully opaque: its alpha is 0 or 255, and it is 0
    exactly for the pixels that pass the test. *)
Theorem rgb_source_alpha_is_binary (sz : nat * nat) (px : list rgb_pixel)
    (out : RGBAImage) (i : nat) (item : pixel) :
  remove_background (ImageRGB sz px) = inr out →
  getdata out !! i = Some item →
  ∃ r g b : Z,
    px !! i = Some (r, g, b) ∧
    (240 < r ∧ 240 < g ∧ 240 < b ∧ item = (255, 255, 255, 0) ∨
     (r ≤ 240 ∨ g ≤ 240 ∨ b ≤ 240) ∧ item = (r, g, b, 255)) ∧
    (item3 item = 0 ∨ item3 item = 255).
Proof.
  intros Hrun Hout.
  rewrite (remove_background_lookup _ _ i Hrun) in Hout.
  cbn [convert_RGBA getdata data] in Hout.
  rewrite list_lookup_fmap in Hout.
  destruct (px !! i) as [[[r g] b]|]; [|done].
  cbn in Hout. injection Hout as <-.
  exists r, g, b. split; [done|].
  destruct (near_white (r, g, b, 255)) eqn:E.
  - rewrite new_item_near_white by done.
    apply near_white_true in E. destruct E as (Hr & Hg & Hb).
    split; [left; by repeat split|left; reflexivity].
  - rewrite new_item_other by done.
    apply near_white_false in E.
    split; [right; by split|right; reflexivity].
Qed.

Lemma rgb_source_alpha_is_binary_witness :
  ∃ r g b : Z,
    [(255, 255, 255); (10, 20, 30)] !! 1%nat = Some (r, g, b) ∧
    (240 < r ∧ 240 < g ∧ 240 < b ∧ (10, 20, 30, 255) = (255, 255, 255, 0) ∨
     (r ≤ 240 ∨ g ≤ 240 ∨ b ≤ 240) ∧ (10, 20, 30, 255) = (r, g, b, 255)) ∧
    (255 = 0 ∨ 255 = 255).
Proof.
  apply (rgb_source_alpha_is_binary
           (2, 1)%nat [(255, 255, 255); (10, 20, 30)]
           {| size := (2, 1)%nat; data := [(255, 255, 255, 0); (10, 20, 30, 255)] |}
           1 (10, 20, 30, 255));
    reflexivity.
Defined.

(** ** More about the script *)

Section ScriptRuns.

Variable decode : list Byte.byte → Exception + Image.
Variable strerror_missing : string → string.
Variable save_png : RGBAImage → string → gmap string (list Byte.byte) →
                    gmap string (list Byte.byte) * option Exception.

Local Abbreviation main := (main decode strerror_missing save_png).

(** A line printed by the handler is never the line of success. *)
Lemma error_line_is_not_success (e : Exception) :
  "Error: " +:+ exc_str e ≠ "Success: Created " +:+ target.
Proof. cbn. discriminate. Qed.

(** Every way through the script, with the world it ends in. *)
Lemma main_run (w : World) :
  main w =
    match fs w !! source with
    | None =>
        ({| fs := fs w;
            stdout := stdout w ++ ["Error: " +:+ strerror_missing source] |},
         inr tt)
    | Some bytes =>
        match decode bytes with
        | inl e =>
            ({| fs := fs w; stdout := stdout w ++ ["Error: " +:+ exc_str e] |},
             inr tt)
        | inr src =>
            match remove_background src with
            | inl e =>
                ({| fs := fs w; stdout := stdout w ++ ["Error: " +:+ exc_str e] |},
                 inr tt)
            | inr out =>
                match save_png out target (fs w) with
                | (fs', Some e) =>
                    ({| fs := fs';
                        stdout := stdout w ++ ["Error: " +:+ exc_str e] |},
                     inr tt)
                | (fs', None) =>
                    ({| fs := fs';
                        stdout := stdout w ++ ["Success: Created " +:+ target] |},
                     inr tt)
                end
            end
        end
    end.
Proof.
  unfold RemoveBg.main, try_except, handler, print.
  rewrite try_body_run.
  destruct (fs w !! source) as [bytes|]; [|done].
  destruct (decode bytes) as [e|src]; [done|].
  destruct (remove_background src) as [e|out]; [done|].
  by destruct (save_png out target (fs w)) as [fs' [e|]].
Qed.

(** X8: when the source file is there, decodes to an image of
    [width * height] pixels, and the save goes through, the script saves at
    the target path the image of the same size whose pixels are the new
    items of the converted source, prints the one line
    "Success: Created " followed by the target path, and ends without an
    exception. *)
Theorem successful_run (w : World) (bytes : list Byte.byte) (src : Image)
    (fs' : gmap string (list Byte.byte)) :
  fs w !! source = Some bytes →
  decode bytes = inr src →
  wf_image src →
  save_png {| size := image_size src;
              data := new_item <$> getdata (convert_RGBA src) |}
           target (fs w) = (fs', None) →
  main w = ({| fs := fs';
               stdout := stdout w ++ ["Success: Created " +:+ target] |},
            inr tt).
Proof.
  intros Hsrc Hdec Hwf Hsave.
  by rewrite main_run, Hsrc, Hdec, remove_background_ok, Hsave.
Qed.

(** X9: every run of the script ends without an exception and adds
    exactly one line to what was printed before: the line of success, or
    "Error: " followed by the description of an exception. *)
Theorem one_line_per_run (w : World) :
  ∃ (fs' : gmap string (list Byte.byte)) (line : string),
    main w = ({| fs := fs'; stdout := stdout w ++ [line] |}, inr tt) ∧
    (line = "Success: Created " +:+ target ∨
     ∃ e : Exception, line = "Error: " +:+ exc_str e).
Proof.
  rewrite main_run.
  destruct (fs w !! source) as [bytes|].
  - destruct (decode bytes) as [e|src]; [by eauto 6|].
    destruct (remove_background src) as [e|out]; [by eauto 6|].
    destruct (save_png out target (fs w)) as [fs' [e|]]; by eauto 6.
  - do 2 eexists. split; [done|]. right.
    by exists (mkException "FileNotFoundError" (strerror_missing source)).
Qed.

(** X10: the script changes the file system by nothing but its one save:
    either the files are as they were, or the source decoded to an image,
    [putdata] accepted the new pixels, and the files are what saving that
    image at the target path made of them. *)
Theorem files_change_only_by_save (w : World) :
  fs (main w).1 = fs w ∨
  ∃ (bytes : list Byte.byte) (src : Image) (out : RGBAImage),
    fs w !! source = Some bytes ∧
    decode bytes = inr src ∧
    remove_background src = inr out ∧
    fs (main w).1 = (save_png out target (fs w)).1.
Proof.
  rewrite main_run.
  destruct (fs w !! source) as [bytes|]; [|by left].
  destruct (decode bytes) as [e|src] eqn:Hdec; [by left|].
  destruct (remove_background src) as [e|out] eqn:Hrun; [by left|].
  right. exists bytes, src, out. split; [done|]. split; [done|]. split; [done|].
  by destruct (save_png out target (fs w)) as [fs' [e|]].
Qed.

(** X11: the line of success is printed only after a save that raised
    nothing: when it is the line a run has added, the source decoded to an
    image, [putdata] accepted the new pixels, and saving that image at the
    target path went through and left the files the run ends with. *)
Theorem success_line_means_saved (w : World) :
  stdout (main w).1 = stdout w ++ ["Success: Created " +:+ target] →
  ∃ (bytes : list Byte.byte) (src : Image) (out : RGBAImage),
    fs w !! source = Some bytes ∧
    decode bytes = inr src ∧
    remove_background src = inr out ∧
    save_png out target (fs w) = (fs (main w).1, None).
Proof.
  rewrite main_run.
  assert (Hno : ∀ e : Exception,
             stdout w ++ ["Error: " +:+ exc_str e] =
             stdout w ++ ["Success: Created " +:+ target] → False).
  { intros e Heq%app_inv_head. apply (error_line_is_not_success e).
    congruence. }
  destruct (fs w !! source) as [bytes|].
  - destruct (decode bytes) as [e|src] eqn:Hdec;
      [intros H; by destruct (Hno e)|].
    destruct (remove_background src) as [e|out] eqn:Hrun;
      [intros H; by destruct (Hno e)|].
    destruct (save_png out target (fs w)) as [fs' [e|]] eqn:Hsave;
      [intros H; by destruct (Hno e)|].
    intros _. by exists bytes, src, out.
  - intros H.
    by destruct (Hno (mkException "FileNotFoundError" (strerror_missing source))).
Qed.

(** X12: when the source file is there but does not decode, the script
    prints "Error: " followed by the decoder's description, writes no file,
    and ends without an exception. *)
Theorem undecodable_source (w : World) (bytes : list Byte.byte) (e : Exception) :
  fs w !! source = Some bytes →
  decode bytes = inl e →
  main w = ({| fs := fs w; stdout := stdout w ++ ["Error: " +:+ exc_str e] |},
            inr tt).
Proof. intros Hsrc Hdec. by rewrite main_run, Hsrc, Hdec. Qed.

(** X13: when the save raises, the script prints "Error: " followed by
    the description of that exception and not the line of success, ends
    without an exception, and the files are as the failed save left them. *)
Theorem failed_save (w : World) (bytes : list Byte.byte) (src : Image)
    (out : RGBAImage) (fs' : gmap string (list Byte.byte)) (e : Exception) :
  fs w !! source = Some bytes →
  decode bytes = inr src →
  remove_background src = inr out →
  save_png out target (fs w) = (fs', Some e) →
  main w = ({| fs := fs'; stdout := stdout w ++ ["Error: " +:+ exc_str e] |},
            inr tt).
Proof.
  intros Hsrc Hdec Hrun Hsave. by rewrite main_run, Hsrc, Hdec, Hrun, Hsave.
Qed.

End ScriptRuns.

Lemma successful_run_witness :
  main (λ _, inr (ImageRGB (2, 1)%nat [(255, 255, 255); (10, 20, 30)]))
       (λ path, "[Errno 2] No such file or directory: " +:+ path)
       (λ _ path files, (<[path := []]> files, None))
       {| fs := {[ source := [] ]}; stdout := [] |} =
    ({| fs := <[target := []]> {[ source := [] ]};
        stdout := [] ++ ["Success: Created " +:+ target] |},
     inr tt).
Proof.
  apply (successful_run
           (λ _, inr (ImageRGB (2, 1)%nat [(255, 255, 255); (10, 20, 30)]))
           (λ path, "[Errno 2] No such file or directory: " +:+ path)
           (λ _ path files, (<[path := []]> files, None))
           {| fs := {[ source := [] ]}; stdout := [] |}
           [] (ImageRGB (2, 1)%nat [(255, 255, 255); (10, 20, 30)]));
    [apply lookup_singleton_eq | reflexivity | reflexivity | reflexivity].
Defined.

Lemma success_line_means_saved_witness :
  ∃ out : RGBAImage,
    remove_background (ImageRGB (1, 1)%nat [(250, 250, 250)]) = inr out.
Proof.
  destruct (success_line_means_saved
              (λ _, inr (ImageRGB (1, 1)%nat [(250, 250, 250)]))
              (λ path, path)
              (λ _ path files, (<[path := []]> files, None))
              {| fs := {[ source := [] ]}; stdout := [] |})
    as (bytes & src & out & _ & Hdec & Hrun & _).
  - rewrite main_run. cbn [fs stdout]. rewrite lookup_singleton_eq. reflexivity.
  - injection Hdec as <-. exists out. exact Hrun.
Defined.

Lemma undecodable_source_witness :
  main (λ _, inl (mkException "UnidentifiedImageError" "cannot identify image file"))
       (λ path, path)
       (λ _ path files, (<[path := []]> files, None))
       {| fs := {[ source := [] ]}; stdout := [] |} =
    ({| fs := {[ source := [] ]};
        stdout := [] ++ ["Error: " +:+ "cannot identify image file"] |},
     inr tt).
Proof.
  exact (undecodable_source
           (λ _, inl (mkException "UnidentifiedImageError"
                                  "cannot identify image file"))
           (λ path, path)
           (λ _ path files, (<[path := []]> files, None))
           {| fs := {[ source := [] ]}; stdout := [] |}
           [] (mkException "UnidentifiedImageError" "cannot identify image file")
           (lookup_singleton_eq source []) eq_refl).
Defined.

Lemma failed_save_witness :
  main (λ _, inr (ImageRGB (1, 1)%nat [(250, 250, 250)]))
       (λ path, path)
       (λ _ _ files, (files, Some (mkException "PermissionError" "Permission denied")))
       {| fs := {[ source := [] ]}; stdout := [] |} =
    ({| fs := {[ source := [] ]};
        stdout := [] ++ ["Error: " +:+ "Permission denied"] |},
     inr tt).
Proof.
  exact (failed_save
           (λ _, inr (ImageRGB (1, 1)%nat [(250, 250, 250)]))
           (λ path, path)
           (λ _ _ files, (files, Some (mkException "PermissionError" "Permission denied")))
           {| fs := {[ source := [] ]}; stdout := [] |}
           [] (ImageRGB (1, 1)%nat [(250, 250, 250)])
           {| size := (1, 1)%nat; data := [(255, 255, 255, 0)] |}
           {[ source := [] ]}
           (mkException "PermissionError" "Permission denied")
           (lookup_singleton_eq source []) eq_refl eq_refl eq_refl).
Defined.

End RemoveBg.
